(** * CSV to HealthDCAT converter: a shallow embedding of
      [src/csv_to_healthdcat/converter.py] and the properties of its
      record mapper, theme classifier and conversion entry point. *)

From Stdlib Require Import Ascii.
From stdpp Require Import base gmap sets list strings pretty.

(** ** Python text operations

    Text is modelled as [string], one [ascii] per character.  The case
    conversions touch the letters [a-z] / [A-Z] only and every other
    character is left alone, which is what [str.upper] and [str.lower] do
    on ASCII text. *)
Module PyStr.

Definition is_lower (c : ascii) : bool :=
  let n := nat_of_ascii c in (97 <=? n)%nat && (n <=? 122)%nat.

Definition is_upper (c : ascii) : bool :=
  let n := nat_of_ascii c in (65 <=? n)%nat && (n <=? 90)%nat.

Definition upper_char (c : ascii) : ascii :=
  if is_lower c then ascii_of_nat (nat_of_ascii c - 32) else c.

Definition lower_char (c : ascii) : ascii :=
  if is_upper c then ascii_of_nat (nat_of_ascii c + 32) else c.

Fixpoint map_chars (f : ascii → ascii) (s : string) : string :=
  match s with
  | EmptyString => EmptyString
  | String c s' => String (f c) (map_chars f s')
  end.

(** [s.upper()] *)
Definition upper (s : string) : string := map_chars upper_char s.

(** [s.lower()] *)
Definition lower (s : string) : string := map_chars lower_char s.

(** [s.replace(old, new)] for one-character [old] and [new]. *)
Definition replace (old new : ascii) (s : string) : string :=
  map_chars (λ c, if Ascii.eqb c old then new else c) s.

(** [s.split(sep)] for a one-character separator: never the empty list,
    [n] separators give [n + 1] pieces, empty pieces are kept. *)
Fixpoint split (sep : ascii) (s : string) : list string :=
  match s with
  | EmptyString => [EmptyString]
  | String c s' =>
      if Ascii.eqb c sep then EmptyString :: split sep s'
      else match split sep s' with
           | piece :: pieces => String c piece :: pieces
           | [] => [String c EmptyString]
           end
  end.

(** The ASCII characters for which [str.isspace] holds: tab, line feed,
    vertical tab, form feed, carriage return, the four separators
    0x1c-0x1f and the space. *)
Definition is_space (c : ascii) : bool :=
  let n := nat_of_ascii c in
  ((9 <=? n)%nat && (n <=? 13)%nat)
  || ((28 <=? n)%nat && (n <=? 32)%nat).

Fixpoint lstrip (s : string) : string :=
  match s with
  | EmptyString => EmptyString
  | String c s' => if is_space c then lstrip s' else s
  end.

Fixpoint rstrip (s : string) : string :=
  match s with
  | EmptyString => EmptyString
  | String c s' =>
      match rstrip s' with
      | EmptyString => if is_space c then EmptyString else String c EmptyString
      | r => String c r
      end
  end.

(** [s.strip()] *)
Definition strip (s : string) : string := rstrip (lstrip s).

(** Truth value of a text: [if s:] holds for the non-empty ones. *)
Definition truthy (s : string) : bool :=
  match s with EmptyString => false | String _ _ => true end.

End PyStr.

(** ** Cells of a row

    What [pandas.read_csv] puts in a cell: the missing-value marker [nan]
    for a blank field, text, an integer, a boolean, or a float, the last
    one kept as the text Python prints for it. *)
Inductive Cell : Type :=
  | NaN
  | Str (s : string)
  | Int (z : Z)
  | Bool (b : bool)
  | Float (repr : string).

(** [str(v)], also what an f-string puts for [{v}]. *)
Definition str (v : Cell) : string :=
  match v with
  | NaN => "nan"
  | Str s => s
  | Int z => pretty z
  | Bool true => "True"
  | Bool false => "False"
  | Float repr => repr
  end.

(** [pd.notna(v)] *)
Definition notna (v : Cell) : bool :=
  match v with NaN => false | _ => true end.

(** A row is a [pandas.Series]: its index labels are the column names. *)
Abbreviation Series := (gmap string Cell).

(** [row.get(key, default)], with the default already of the result type. *)
Definition get {A} (row : Series) (key : string) (f : Cell → A) (default : A) : A :=
  match row !! key with
  | Some v => f v
  | None => default
  end.

(** [key in row and pd.notna(row[key])], giving the cell when it holds. *)
Definition present (row : Series) (key : string) : option Cell :=
  match row !! key with
  | Some v => if notna v then Some v else None
  | None => None
  end.

(** ** RDF terms, triples and the graph *)
Inductive Node : Type :=
  | URIRef (uri : string)
  | Literal (text : string).

#[global] Instance Node_eq_dec : EqDecision Node.
Proof. solve_decision. Defined.

#[global] Instance Node_countable : Countable Node.
Proof.
  apply (inj_countable'
           (λ n, match n with URIRef u => inl u | Literal t => inr t end)
           (λ x, match x with inl u => URIRef u | inr t => Literal t end)).
  by intros [].
Defined.

Abbreviation Triple := (Node * Node * Node)%type.

(** An [rdflib.Graph] holds a set of triples. *)
Abbreviation Graph := (gset Triple).

(** [graph.add(t)]: adding a triple that is there already changes nothing. *)
Definition graph_add (g : Graph) (t : Triple) : Graph := {[ t ]} ∪ g.

(** Namespaces of the module. *)
Module NS.
Definition DCAT (name : string) : Node := URIRef ("http://www.w3.org/ns/dcat#" +:+ name).
Definition DCTERMS (name : string) : Node := URIRef ("http://purl.org/dc/terms/" +:+ name).
Definition FOAF (name : string) : Node := URIRef ("http://xmlns.com/foaf/0.1/" +:+ name).
Definition RDF (name : string) : Node :=
  URIRef ("http://www.w3.org/1999/02/22-rdf-syntax-ns#" +:+ name).
End NS.

(** ** Theme classifier *)

(** The [theme_mapping] dictionary of [_get_theme_uri]. *)
Definition theme_mapping : gmap string string :=
  list_to_map
    [ ("HEALTH", "HEAL"); ("HEAL", "HEAL"); ("MEDICINE", "HEAL");
      ("SCIENCE", "SCIE"); ("EDUCATION", "EDUC"); ("ENVIRONMENT", "ENVI");
      ("TECHNOLOGY", "TECH") ].

Definition theme_authority : string :=
  "http://publications.europa.eu/resource/authority/data-theme".

(** The URI of a code under the authority: [<authority-base>/<code>]. *)
Definition theme_code_uri (code : string) : Node :=
  URIRef (theme_authority +:+ "/" +:+ code).

(** [CSVToHealthDCAT._get_theme_uri] *)
Definition _get_theme_uri (theme : string) : Node :=
  let mapped_theme := default "HEAL" (theme_mapping !! theme) in
  theme_code_uri mapped_theme.

(** ** The converter *)

(** The state of a [CSVToHealthDCAT] object. *)
Record CSVToHealthDCAT : Type := {
  base_uri : string;
  graph : Graph;
}.

(** [CSVToHealthDCAT(base_uri)]: a converter starts with an empty graph;
    [_bind_namespaces] binds prefixes for the serializer and adds no
    triple. *)
Definition __init__ (base_uri : string) : CSVToHealthDCAT :=
  {| base_uri := base_uri; graph := ∅ |}.

(** The table [pd.read_csv] returns: the column names of the header and
    the cells of every data row, in file order. *)
Record DataFrame : Type := {
  columns : list string;
  data : list (list Cell);
}.

(** [df.empty]: one of the two axes has length zero. *)
Definition df_empty (df : DataFrame) : bool :=
  match columns df, data df with
  | [], _ | _, [] => true
  | _, _ => false
  end.

(** [df.iterrows()]: every row with its label, which is its 0-based
    position for the index [read_csv] builds. *)
Definition iterrows (df : DataFrame) : list (nat * Series) :=
  imap (λ idx cells, (idx, list_to_map (zip (columns df) cells))) (data df).

(** What is at [csv_path]: a text [read_csv] rejects, with the message
    of its exception, or a table. *)
Inductive CsvFile : Type :=
  | Unreadable (e : string)
  | Readable (df : DataFrame).

(** The files that exist, by path. *)
Abbreviation FileSystem := (gmap string CsvFile).

(** The exceptions [convert_csv] raises, with what their messages show. *)
Inductive Exception : Type :=
  | FileNotFoundError (csv_path : string)
  | ValueError_read (e : string)
  | ValueError_missing_columns (missing_columns : gset string).

(** How a call ends. *)
Inductive Outcome : Type :=
  | Raise (e : Exception)
  | Return (g : Graph).

Definition required_columns : gset string := {[ "title"; "description" ]}.

Section Converter.

(** [urllib.parse.urljoin], a library function of which the converter
    only uses the result. *)
Variable urljoin : string → string → string.

(** The identifier of the dataset of a row:
    [row.get("id", f"dataset-{row_index + 1}")]. *)
Definition dataset_id (row : Series) (row_index : nat) : string :=
  get row "id" str ("dataset-" +:+ pretty (row_index + 1)).

Definition dataset_uri (self : CSVToHealthDCAT) (row : Series) (row_index : nat) : Node :=
  URIRef (urljoin (base_uri self) ("dataset/" +:+ dataset_id row row_index)).

(** The slug of a publisher name: [publisher_name.replace(' ', '-').lower()]. *)
Definition slug (publisher_name : string) : string :=
  PyStr.lower (PyStr.replace " " "-" publisher_name).

Definition publisher_uri (self : CSVToHealthDCAT) (publisher_name : string) : Node :=
  URIRef (urljoin (base_uri self) ("organization/" +:+ slug publisher_name)).

(** The statements of [_add_dataset_to_graph], one definition for each
    group of [self.graph.add] calls, in the order of the code. *)
Definition type_triples (dataset_uri : Node) : list Triple :=
  [ (dataset_uri, NS.RDF "type", NS.DCAT "Dataset") ].

Definition title_triples (dataset_uri : Node) (row : Series) : list Triple :=
  let title := get row "title" str "Unknown" in
  [ (dataset_uri, NS.DCTERMS "title", Literal title) ].

Definition description_triples (dataset_uri : Node) (row : Series) : list Triple :=
  let description := get row "description" str "" in
  if PyStr.truthy description
  then [ (dataset_uri, NS.DCTERMS "description", Literal description) ]
  else [].

Definition publisher_triples (self : CSVToHealthDCAT) (dataset_uri : Node)
    (row : Series) : list Triple :=
  match present row "publisher" with
  | Some v =>
      let publisher_name := str v in
      let publisher_uri := publisher_uri self publisher_name in
      [ (dataset_uri, NS.DCTERMS "publisher", publisher_uri);
        (publisher_uri, NS.RDF "type", NS.FOAF "Organization");
        (publisher_uri, NS.FOAF "name", Literal publisher_name) ]
  | None => []
  end.

Definition issued_triples (dataset_uri : Node) (row : Series) : list Triple :=
  match present row "issued" with
  | Some v => [ (dataset_uri, NS.DCTERMS "issued", Literal (str v)) ]
  | None => []
  end.

Definition modified_triples (dataset_uri : Node) (row : Series) : list Triple :=
  match present row "modified" with
  | Some v => [ (dataset_uri, NS.DCTERMS "modified", Literal (str v)) ]
  | None => []
  end.

Definition license_triples (dataset_uri : Node) (row : Series) : list Triple :=
  match present row "license" with
  | Some v => [ (dataset_uri, NS.DCTERMS "license", URIRef (str v)) ]
  | None => []
  end.

Definition theme_triples (dataset_uri : Node) (row : Series) : list Triple :=
  match present row "theme" with
  | Some v =>
      let theme_value := PyStr.upper (str v) in
      let theme_uri := _get_theme_uri theme_value in
      [ (dataset_uri, NS.DCAT "theme", theme_uri) ]
  | None => []
  end.

Definition keyword_triples (dataset_uri : Node) (row : Series) : list Triple :=
  match present row "keyword" with
  | Some v =>
      let keywords := PyStr.split ";" (str v) in
      (λ keyword, (dataset_uri, NS.DCAT "keyword", Literal (PyStr.strip keyword)))
        <$> keywords
  | None => []
  end.

Definition landing_page_triples (dataset_uri : Node) (row : Series) : list Triple :=
  match present row "landing_page" with
  | Some v => [ (dataset_uri, NS.DCAT "landingPage", URIRef (str v)) ]
  | None => []
  end.

(** The triples one call of [_add_dataset_to_graph] hands to
    [self.graph.add], in call order. *)
Definition emitted (self : CSVToHealthDCAT) (row : Series) (row_index : nat) : list Triple :=
  let dataset_uri := dataset_uri self row row_index in
  type_triples dataset_uri
  ++ title_triples dataset_uri row
  ++ description_triples dataset_uri row
  ++ publisher_triples self dataset_uri row
  ++ issued_triples dataset_uri row
  ++ modified_triples dataset_uri row
  ++ license_triples dataset_uri row
  ++ theme_triples dataset_uri row
  ++ keyword_triples dataset_uri row
  ++ landing_page_triples dataset_uri row.

(** [CSVToHealthDCAT._add_dataset_to_graph] *)
Definition _add_dataset_to_graph (self : CSVToHealthDCAT) (row : Series)
    (row_index : nat) : CSVToHealthDCAT :=
  {| base_uri := base_uri self;
     graph := foldl graph_add (graph self) (emitted self row row_index) |}.

(** [CSVToHealthDCAT.convert_csv]: the converter after the call and how
    the call ended. *)
Definition convert_csv (self : CSVToHealthDCAT) (fs : FileSystem)
    (csv_path : string) : CSVToHealthDCAT * Outcome :=
  match fs !! csv_path with
  | None => (self, Raise (FileNotFoundError csv_path))
  | Some (Unreadable e) => (self, Raise (ValueError_read e))
  | Some (Readable df) =>
      if df_empty df then (self, Return (graph self))
      else
        let missing_columns := required_columns ∖ list_to_set (columns df) in
        if bool_decide (missing_columns ≠ ∅)
        then (self, Raise (ValueError_missing_columns missing_columns))
        else
          let self' :=
            foldl (λ s '(idx, row), _add_dataset_to_graph s row idx)
                  self (iterrows df) in
          (self', Return (graph self'))
  end.

End Converter.

(** [graph.triples((None, predicate, None))]: the triples of a list with
    a given predicate. *)
Definition with_predicate (predicate : Node) (ts : list Triple) : list Triple :=
  filter (λ t, t.1.2 = predicate) ts.

(** [graph.objects(predicate=predicate)] *)
Definition objects (predicate : Node) (ts : list Triple) : list Node :=
  snd <$> with_predicate predicate ts.

(** The keys and the codes of [theme_mapping]. *)
Definition theme_labels : list string :=
  [ "HEALTH"; "HEAL"; "MEDICINE"; "SCIENCE"; "EDUCATION"; "ENVIRONMENT";
    "TECHNOLOGY" ].

Definition theme_codes : list string := [ "HEAL"; "SCIE"; "EDUC"; "ENVI"; "TECH" ].

(** The predicate of every triple of a list. *)
Definition all_predicates (P : Node → Prop) (ts : list Triple) : Prop :=
  Forall (λ t, P t.1.2) ts.

(** A predicate that is none of those of the title, description and
    keyword statements. *)
Definition unreserved (p : Node) : Prop :=
  p ≠ NS.DCTERMS "title" ∧ p ≠ NS.DCTERMS "description" ∧ p ≠ NS.DCAT "keyword".


(** The join of a relative reference with a base that is a scheme, a host
    and a path ending with a slash puts the reference after the base; the
    examples below are at such a base. *)
Definition join_under_directory (base reference : string) : string :=
  base +:+ reference.

(** ** The whole table and the command line *)


(** The arguments [argparse] hands to [main]: [--input], [--output],
    [--base-uri] and [--verbose]. *)
Record Args : Type := {
  arg_input : string;
  arg_output : string;
  arg_base_uri : string;
  arg_verbose : bool;
}.

(** What a run of [main] leaves: its exit code and the call of
    [graph.serialize] it made, if it made one, with the destination and
    the graph. *)
Record Run : Type := {
  exit_code : nat;
  serialized : option (string * Graph);
}.

Section CommandLine.

Variable urljoin : string → string → string.

(** Whether [graph.serialize(destination, format="turtle")] returns; it
    raises when the destination cannot be written. *)
Variable serialize_ok : Graph → string → bool.

(** [main] of [main.py], after the arguments are parsed.  The verbose
    flag only sets the level of the logger. *)
Definition main (fs : FileSystem) (args : Args) : Run :=
  let input_path := arg_input args in
  let output_path := arg_output args in
  match fs !! input_path with
  | None => {| exit_code := 1; serialized := None |}
  | Some _ =>
      let converter := __init__ (arg_base_uri args) in
      match convert_csv urljoin converter fs input_path with
      | (_, Return graph) =>
          if serialize_ok graph output_path
          then {| exit_code := 0; serialized := Some (output_path, graph) |}
          else {| exit_code := 1; serialized := Some (output_path, graph) |}
      | (_, Raise e) => {| exit_code := 1; serialized := None |}
      end
  end.

End CommandLine.

(** ** Measures on texts *)

(** How many times a character occurs in a text. *)
Fixpoint count_char (c : ascii) (s : string) : nat :=
  match s with
  | EmptyString => 0
  | String c' s' => (if Ascii.eqb c' c then 1 else 0) + count_char c s'
  end.


(** The first and the last character of a text, if it has one. *)
Definition first_char (s : string) : option ascii :=
  match s with
  | EmptyString => None
  | String c _ => Some c
  end.

Fixpoint last_char (s : string) : option ascii :=
  match s with
  | EmptyString => None
  | String c EmptyString => Some c
  | String _ s' => last_char s'
  end.

(** A text that neither starts nor ends with a white-space character. *)
Definition trimmed (s : string) : Prop :=
  (∀ c, first_char s = Some c → PyStr.is_space c = false)
  ∧ (∀ c, last_char s = Some c → PyStr.is_space c = false).

(** The pieces of [s.split(sep)] put together again with the separator:
    [sep.join(pieces)]. *)
Fixpoint join (sep : ascii) (pieces : list string) : string :=
  match pieces with
  | [] => EmptyString
  | [piece] => piece
  | piece :: pieces' => piece +:+ String sep (join sep pieces')
  end.


(** The table and the file system of the examples. *)
Definition example_table : DataFrame :=
  {| columns := [ "title"; "description" ];
     data := [ [ Str "Blood Pressure Dataset"; Str "Readings" ];
               [ Str "Diabetes Registry"; Str "Patients" ] ] |}.

Definition example_files : FileSystem :=
  {[ "data.csv" := Readable example_table;
     "invalid.csv" := Readable {| columns := [ "publisher" ];
                                  data := [ [ Str "Test" ] ] |} ]}.

(** * Properties *)

(** ** Text operations *)
Module PyStrFacts.
Import PyStr.

Lemma upper_char_idemp (c : ascii) : upper_char (upper_char c) = upper_char c.
Proof. by destruct c as [[] [] [] [] [] [] [] []]. Qed.

Lemma upper_idemp (s : string) : upper (upper s) = upper s.
Proof.
  induction s as [|c s IH]; [done|].
  unfold upper in *; simpl. by rewrite upper_char_idemp, IH.
Qed.

Lemma split_not_nil (sep : ascii) (s : string) : split sep s ≠ [].
Proof.
  destruct s as [|c s]; [done|]. simpl.
  destruct (Ascii.eqb c sep); [done|]. by destruct (split sep s).
Qed.

End PyStrFacts.

(** ** Selecting triples by predicate *)
Section Selection.
Implicit Types (p : Node) (ts : list Triple).

Lemma with_predicate_app p ts1 ts2 :
  with_predicate p (ts1 ++ ts2) = with_predicate p ts1 ++ with_predicate p ts2.
Proof. apply filter_app. Qed.

Lemma with_predicate_all p ts :
  Forall (λ t, t.1.2 = p) ts → with_predicate p ts = ts.
Proof.
  induction 1 as [|t ts Ht _ IH]; [done|].
  unfold with_predicate in *. by rewrite filter_cons_True, IH.
Qed.

Lemma with_predicate_none p ts :
  Forall (λ t, t.1.2 ≠ p) ts → with_predicate p ts = [].
Proof.
  induction 1 as [|t ts Ht _ IH]; [done|].
  unfold with_predicate in *. by rewrite filter_cons_False, IH.
Qed.

Lemma elem_of_with_predicate p (t : Triple) ts :
  t.1.2 = p → t ∈ with_predicate p ts ↔ t ∈ ts.
Proof.
  intros Hp. unfold with_predicate. rewrite list_elem_of_filter. tauto.
Qed.

End Selection.

(** Closes [all_predicates] goals over the groups of statements of the
    mapper, whose predicates are constants. *)
Ltac predicates :=
  unfold all_predicates, unreserved;
  repeat match goal with
         | |- context [present ?row ?key] => destruct (present row key)
         | |- context [PyStr.truthy ?s] => destruct (PyStr.truthy s)
         end;
  repeat first
    [ apply Forall_nil_2
    | apply Forall_cons_2; [by repeat split |]
    | apply Forall_fmap, Forall_true; intros ?; by repeat split ].

Lemma with_predicate_block (P : Node → Prop) p ts :
  all_predicates P ts → (∀ q, P q → q ≠ p) → with_predicate p ts = [].
Proof.
  intros Hts HP. apply with_predicate_none.
  eapply Forall_impl; [exact Hts|]. intros t Ht. by apply HP.
Qed.

Section MapperFacts.
Variable urljoin : string → string → string.
Implicit Types (self : CSVToHealthDCAT) (row : Series) (ds : Node).

Lemma title_block ds row :
  all_predicates (λ p, p = NS.DCTERMS "title") (title_triples ds row).
Proof. unfold title_triples. predicates. Qed.

Lemma description_block ds row :
  all_predicates (λ p, p = NS.DCTERMS "description") (description_triples ds row).
Proof. unfold description_triples. predicates. Qed.

Lemma keyword_block ds row :
  all_predicates (λ p, p = NS.DCAT "keyword") (keyword_triples ds row).
Proof. unfold keyword_triples. predicates. Qed.

Lemma type_block ds : all_predicates unreserved (type_triples ds).
Proof. unfold type_triples. predicates. Qed.

Lemma publisher_block self ds row :
  all_predicates unreserved (publisher_triples urljoin self ds row).
Proof. unfold publisher_triples. predicates. Qed.

Lemma issued_block ds row : all_predicates unreserved (issued_triples ds row).
Proof. unfold issued_triples. predicates. Qed.

Lemma modified_block ds row : all_predicates unreserved (modified_triples ds row).
Proof. unfold modified_triples. predicates. Qed.

Lemma license_block ds row : all_predicates unreserved (license_triples ds row).
Proof. unfold license_triples. predicates. Qed.

Lemma theme_block ds row : all_predicates unreserved (theme_triples ds row).
Proof. unfold theme_triples. predicates. Qed.

Lemma landing_page_block ds row :
  all_predicates unreserved (landing_page_triples ds row).
Proof. unfold landing_page_triples. predicates. Qed.

(** Rewrites the selection of one predicate from the statements of a
    row, group by group. *)
Ltac select_blocks :=
  unfold emitted; rewrite !with_predicate_app;
  repeat first
    [ rewrite (with_predicate_all _ (title_triples _ _)) by apply title_block
    | rewrite (with_predicate_all _ (description_triples _ _))
        by apply description_block
    | rewrite (with_predicate_all _ (keyword_triples _ _)) by apply keyword_block
    | rewrite (with_predicate_block _ _ (title_triples _ _) (title_block _ _))
        by (by intros ? ->)
    | rewrite (with_predicate_block _ _ (description_triples _ _)
                 (description_block _ _)) by (by intros ? ->)
    | rewrite (with_predicate_block _ _ (keyword_triples _ _) (keyword_block _ _))
        by (by intros ? ->)
    | rewrite (with_predicate_block _ _ _ (type_block _)) by (intros ?; unfold unreserved; tauto)
    | rewrite (with_predicate_block _ _ _ (publisher_block _ _ _))
        by (intros ?; unfold unreserved; tauto)
    | rewrite (with_predicate_block _ _ _ (issued_block _ _))
        by (intros ?; unfold unreserved; tauto)
    | rewrite (with_predicate_block _ _ _ (modified_block _ _))
        by (intros ?; unfold unreserved; tauto)
    | rewrite (with_predicate_block _ _ _ (license_block _ _))
        by (intros ?; unfold unreserved; tauto)
    | rewrite (with_predicate_block _ _ _ (theme_block _ _))
        by (intros ?; unfold unreserved; tauto)
    | rewrite (with_predicate_block _ _ _ (landing_page_block _ _))
        by (intros ?; unfold unreserved; tauto) ];
  simpl; rewrite ?app_nil_r.

(** The title statements of a row are those of its title step. *)
Lemma emitted_title self row idx :
  with_predicate (NS.DCTERMS "title") (emitted urljoin self row idx)
  = title_triples (dataset_uri urljoin self row idx) row.
Proof. by select_blocks. Qed.

Lemma emitted_description self row idx :
  with_predicate (NS.DCTERMS "description") (emitted urljoin self row idx)
  = description_triples (dataset_uri urljoin self row idx) row.
Proof. by select_blocks. Qed.

Lemma emitted_keyword self row idx :
  with_predicate (NS.DCAT "keyword") (emitted urljoin self row idx)
  = keyword_triples (dataset_uri urljoin self row idx) row.
Proof. by select_blocks. Qed.

End MapperFacts.

(** ** The graph after a row *)

Lemma foldl_graph_add (g : Graph) (ts : list Triple) :
  foldl graph_add g ts = list_to_set ts ∪ g.
Proof.
  revert g. induction ts as [|t ts IH]; intros g; simpl.
  - by rewrite (left_id_L ∅ (∪)).
  - rewrite IH. unfold graph_add.
    by rewrite (comm_L (∪) {[t]} (list_to_set ts)), (assoc_L (∪)).
Qed.

(** The mapper only adds: what was in the graph stays, and what it emits
    is in the graph afterwards. *)
Lemma _add_dataset_to_graph_graph urljoin self row idx :
  graph (_add_dataset_to_graph urljoin self row idx)
  = list_to_set (emitted urljoin self row idx) ∪ graph self.
Proof. apply foldl_graph_add. Qed.

(** ** Theme classifier *)

Lemma theme_mapping_code (theme code : string) :
  theme_mapping !! theme = Some code → code ∈ theme_codes.
Proof.
  unfold theme_mapping. intros H%elem_of_list_to_map_2.
  rewrite !elem_of_cons, elem_of_nil in H.
  destruct_or!; try done;
    injection H as -> ->; by apply (bool_decide_unpack _).
Qed.

Lemma theme_mapping_unlisted (theme : string) :
  theme ∉ theme_labels → theme_mapping !! theme = None.
Proof. intros H. by apply not_elem_of_list_to_map_1. Qed.

(** C8: [_get_theme_uri] is a function defined on every text: the labels
    "health", "HEALTH" and "Medicine" all get the HEAL code URI, a text
    that is not a key of the table (the empty text is one) gets the default
    code HEAL, and the result is always the authority base, a slash and one
    of the codes of the table. *)
Theorem theme_classifier_total (theme : string) :
  (∃ code, code ∈ theme_codes
           ∧ _get_theme_uri theme = URIRef (theme_authority +:+ "/" +:+ code))
  ∧ (theme ∉ theme_labels → _get_theme_uri theme = theme_code_uri "HEAL")
  ∧ _get_theme_uri "health" = theme_code_uri "HEAL"
  ∧ _get_theme_uri "HEALTH" = theme_code_uri "HEAL"
  ∧ _get_theme_uri "Medicine" = theme_code_uri "HEAL"
  ∧ _get_theme_uri "" = theme_code_uri "HEAL"
  ∧ _get_theme_uri "anything-unrecognized" = theme_code_uri "HEAL".
Proof.
  split; [|split; [|by vm_compute]].
  - unfold _get_theme_uri.
    destruct (theme_mapping !! theme) as [code|] eqn:Hcode; simpl.
    + exists code. split; [by eapply theme_mapping_code | done].
    + exists "HEAL". split; [apply list_elem_of_here | done].
  - intros Hnot. unfold _get_theme_uri.
    by rewrite theme_mapping_unlisted.
Qed.

Lemma theme_classifier_total_witness :
  ("" ∉ theme_labels) ∧ _get_theme_uri "" = theme_code_uri "HEAL".
Proof.
  assert (H : "" ∉ theme_labels) by (by apply (bool_decide_unpack _)).
  split; [exact H|].
  exact (proj1 (proj2 (theme_classifier_total "")) H).
Defined.

(** The lookup of [_get_theme_uri] is exact: it tells a lower-case label
    from its upper-case form. *)
Lemma theme_lookup_exact_counterexample :
  _get_theme_uri "science" = theme_code_uri "HEAL"
  ∧ _get_theme_uri (PyStr.upper "science") = theme_code_uri "SCIE"
  ∧ (_get_theme_uri "science" ≠ _get_theme_uri (PyStr.upper "science")).
Proof. by vm_compute. Qed.

(** C4, as the code has it: the upper-casing is a step of the record
    mapper, before it calls [_get_theme_uri], and the lookup itself is
    exact.  For every theme text the mapper emits the theme statement it
    emits for the upper-cased text, so rows with theme "science" and
    "SCIENCE" get the same code URI (SCIE); and [_get_theme_uri] gives the
    same URI on an upper-cased text and on its upper-casing. *)
Theorem theme_normalized_by_mapper (ds : Node) (row : Series) (t : string) :
  theme_triples ds (<["theme" := Str t]> row)
  = theme_triples ds (<["theme" := Str (PyStr.upper t)]> row)
  ∧ theme_triples ds (<["theme" := Str t]> row)
    = [ (ds, NS.DCAT "theme", _get_theme_uri (PyStr.upper t)) ]
  ∧ _get_theme_uri (PyStr.upper (PyStr.upper t)) = _get_theme_uri (PyStr.upper t)
  ∧ theme_triples ds (<["theme" := Str "science"]> row)
    = [ (ds, NS.DCAT "theme", theme_code_uri "SCIE") ]
  ∧ theme_triples ds (<["theme" := Str "SCIENCE"]> row)
    = [ (ds, NS.DCAT "theme", theme_code_uri "SCIE") ].
Proof.
  unfold theme_triples, present.
  rewrite !lookup_insert_eq. simpl.
  rewrite PyStrFacts.upper_idemp. by repeat split.
Qed.

(** ** Record mapper *)
Section MapperProperties.
Variable urljoin : string → string → string.
Implicit Types (self : CSVToHealthDCAT) (row : Series) (idx : nat).

(** Every row gets one title statement, on its dataset resource; its
    literal is the stringified cell of the row, and "Unknown" when the
    row has no [title] label. *)
Lemma title_statement self row idx :
  with_predicate (NS.DCTERMS "title") (emitted urljoin self row idx)
  = [ (dataset_uri urljoin self row idx, NS.DCTERMS "title",
       Literal (default "Unknown" (str <$> row !! "title"))) ].
Proof.
  rewrite emitted_title. unfold title_triples, get.
  by destruct (row !! "title").
Qed.

(** C1, at the table of the text [title,description] / [,Some text]: the
    title field of its row is blank, [read_csv] gives the cell [nan], the
    row has the [title] label, [row.get] returns the cell and [str] turns
    it into the text "nan".  The conversion returns, and the title
    statement of the dataset is in the graph with the literal "nan", the
    only title literal there; "Unknown" is not. *)
Theorem blank_title_literal (base : string) :
  let df := {| columns := [ "title"; "description" ];
               data := [ [ NaN; Str "Some text" ] ] |} in
  let ds := URIRef (urljoin base "dataset/dataset-1") in
  ∃ self',
    convert_csv urljoin (__init__ base) {[ "blank_title.csv" := Readable df ]}
      "blank_title.csv" = (self', Return (graph self'))
    ∧ (ds, NS.DCTERMS "title", Literal "nan") ∈ graph self'
    ∧ (∀ s o, (s, NS.DCTERMS "title", o) ∈ graph self' → s = ds ∧ o = Literal "nan")
    ∧ (ds, NS.DCTERMS "title", Literal "Unknown") ∉ graph self'.
Proof.
  intros df ds.
  set (row := {[ "title" := NaN; "description" := Str "Some text" ]} : Series).
  exists (_add_dataset_to_graph urljoin (__init__ base) row 0).
  assert (Hds : dataset_uri urljoin (__init__ base) row 0 = ds) by done.
  assert (Htitle : ∀ s o,
    (s, NS.DCTERMS "title", o)
      ∈ graph (_add_dataset_to_graph urljoin (__init__ base) row 0)
    ↔ s = ds ∧ o = Literal "nan").
  { intros s o. rewrite _add_dataset_to_graph_graph.
    change (graph (__init__ base)) with (∅ : Graph).
    rewrite (right_id_L ∅ (∪)), elem_of_list_to_set.
    rewrite <-(elem_of_with_predicate (NS.DCTERMS "title")) by done.
    rewrite title_statement, Hds, list_elem_of_singleton.
    split; [by intros [= -> ->] | by intros [-> ->]]. }
  split; [done|]. split; [by apply Htitle|]. split.
  - intros s o Hin. by apply Htitle.
  - intros [_ [=]]%Htitle.
Qed.


(** A blank description field is the cell [nan], whose text "nan" is not
    empty: the row gets a description statement with that literal. *)
Lemma blank_description_literal self row idx :
  row !! "description" = Some NaN →
  objects (NS.DCTERMS "description") (emitted urljoin self row idx)
  = [ Literal "nan" ].
Proof.
  intros Hrow. unfold objects. rewrite emitted_description.
  unfold description_triples, get. by rewrite Hrow.
Qed.



(** When the row has an [id] label, the identifier is the stringified
    cell; for a blank field that is the text "nan". *)
Lemma given_dataset_id self row idx (v : Cell) :
  row !! "id" = Some v →
  dataset_uri urljoin self row idx
  = URIRef (urljoin (base_uri self) ("dataset/" +:+ str v)).
Proof. intros Hid. unfold dataset_uri, dataset_id, get. by rewrite Hid. Qed.

(** C5: the publisher URI joins the base URI with [organization/<slug>],
    the slug being the publisher name with every space replaced by a
    hyphen and then lower-cased; names with the same slug, such as
    "Health Authority" and "health-authority", have the same URI, and two
    rows with such publishers emit their publisher statements about that
    one resource. *)
Theorem publisher_identity self (name1 name2 : string) :
  slug name1 = slug name2 →
  publisher_uri urljoin self name1
  = URIRef (urljoin (base_uri self)
              ("organization/" +:+ PyStr.lower (PyStr.replace " " "-" name1)))
  ∧ publisher_uri urljoin self name1 = publisher_uri urljoin self name2
  ∧ slug "Health Authority" = "health-authority"
  ∧ slug "health-authority" = "health-authority"
  ∧ (∀ row1 row2 idx1 idx2 (v1 v2 : Cell),
       row1 !! "publisher" = Some v1 → notna v1 = true → str v1 = name1 →
       row2 !! "publisher" = Some v2 → notna v2 = true → str v2 = name2 →
       let organization := publisher_uri urljoin self name1 in
       (dataset_uri urljoin self row1 idx1, NS.DCTERMS "publisher", organization)
         ∈ emitted urljoin self row1 idx1
       ∧ (organization, NS.FOAF "name", Literal name1)
         ∈ emitted urljoin self row1 idx1
       ∧ (dataset_uri urljoin self row2 idx2, NS.DCTERMS "publisher", organization)
         ∈ emitted urljoin self row2 idx2
       ∧ (organization, NS.FOAF "name", Literal name2)
         ∈ emitted urljoin self row2 idx2).
Proof.
  intros Hslug.
  assert (Huri : publisher_uri urljoin self name1 = publisher_uri urljoin self name2).
  { unfold publisher_uri. by rewrite Hslug. }
  split; [done|]. split; [exact Huri|]. split; [done|]. split; [done|].
  intros row1 row2 idx1 idx2 v1 v2 Hrow1 Hv1 Hname1 Hrow2 Hv2 Hname2 organization.
  assert (Hin : ∀ row idx v name,
    row !! "publisher" = Some v → notna v = true → str v = name →
    (dataset_uri urljoin self row idx, NS.DCTERMS "publisher",
     publisher_uri urljoin self name) ∈ emitted urljoin self row idx
    ∧ (publisher_uri urljoin self name, NS.FOAF "name", Literal name)
      ∈ emitted urljoin self row idx).
  { intros row idx v name Hrow Hv Hname.
    assert (Hblock : publisher_triples urljoin self (dataset_uri urljoin self row idx) row
      = [ (dataset_uri urljoin self row idx, NS.DCTERMS "publisher",
           publisher_uri urljoin self name);
          (publisher_uri urljoin self name, NS.RDF "type", NS.FOAF "Organization");
          (publisher_uri urljoin self name, NS.FOAF "name", Literal name) ]).
    { unfold publisher_triples, present. by rewrite Hrow, Hv, Hname. }
    unfold emitted. rewrite Hblock.
    split; do 3 (apply elem_of_app; right); apply elem_of_app; left.
    - apply list_elem_of_here.
    - do 2 apply list_elem_of_further. apply list_elem_of_here. }
  destruct (Hin row1 idx1 v1 name1 Hrow1 Hv1 Hname1) as [H1 H2].
  destruct (Hin row2 idx2 v2 name2 Hrow2 Hv2 Hname2) as [H3 H4].
  unfold organization. rewrite Huri at 3 4. done.
Qed.

End MapperProperties.



Lemma publisher_identity_witness :
  publisher_uri join_under_directory (__init__ "http://example.org/") "Health Authority"
  = publisher_uri join_under_directory (__init__ "http://example.org/") "health-authority"
  ∧ publisher_uri join_under_directory (__init__ "http://example.org/") "Health Authority"
    = URIRef "http://example.org/organization/health-authority".
Proof.
  pose proof (publisher_identity join_under_directory (__init__ "http://example.org/")
                "Health Authority" "health-authority" eq_refl) as H.
  split.
  - exact (proj1 (proj2 H)).
  - exact (proj1 H).
Defined.

(** ** Conversion *)
Section ConversionProperties.
Variable urljoin : string → string → string.
Implicit Types (self : CSVToHealthDCAT) (fs : FileSystem) (df : DataFrame).
Implicit Types (csv_path : string).

Lemma df_empty_false df :
  columns df ≠ [] → data df ≠ [] → df_empty df = false.
Proof. unfold df_empty. by destruct (columns df), (data df). Qed.

Lemma df_empty_no_rows df : data df = [] → df_empty df = true.
Proof. unfold df_empty. intros ->. by destruct (columns df). Qed.

(** C3, as the code has it: the emptiness test comes first, so the
    required columns are only checked on a table with a data row.  For
    such a table whose columns do not include both [title] and
    [description], the call raises the [ValueError] that shows the set of
    the required columns that are missing, and leaves the converter as it
    was. *)
Theorem missing_columns_rejected self fs csv_path df :
  fs !! csv_path = Some (Readable df) →
  columns df ≠ [] →
  data df ≠ [] →
  ¬ (required_columns ⊆ list_to_set (columns df)) →
  let missing_columns : gset string :=
    required_columns ∖ list_to_set (columns df) in
  convert_csv urljoin self fs csv_path
  = (self, Raise (ValueError_missing_columns missing_columns))
  ∧ missing_columns ≠ ∅
  ∧ (∀ column, column ∈ missing_columns
               ↔ (column = "title" ∨ column = "description")
                 ∧ column ∉ columns df).
Proof.
  intros Hfile Hcols Hrows Hmissing missing_columns.
  assert (Hne : missing_columns ≠ ∅).
  { intros Hempty. apply Hmissing. intros column Hcolumn.
    destruct (decide (column ∈ (list_to_set (columns df) : gset string)))
      as [|Hout]; [done|].
    assert (column ∈ missing_columns) as Hin by (by apply elem_of_difference).
    rewrite Hempty in Hin. by apply not_elem_of_empty in Hin. }
  split; [|split; [exact Hne|]].
  - unfold convert_csv. rewrite Hfile, df_empty_false by done.
    fold missing_columns. by rewrite bool_decide_eq_true_2.
  - intros column. unfold missing_columns, required_columns.
    rewrite elem_of_difference, elem_of_union, !elem_of_singleton,
      elem_of_list_to_set.
    done.
Qed.

(** C9: a table without data rows, whatever its columns: the call
    returns the graph of the converter and the converter is as before;
    nothing is raised and no triple is added. *)
Theorem empty_table_noop self fs csv_path df :
  fs !! csv_path = Some (Readable df) →
  data df = [] →
  convert_csv urljoin self fs csv_path = (self, Return (graph self)).
Proof.
  intros Hfile Hrows. unfold convert_csv.
  by rewrite Hfile, df_empty_no_rows.
Qed.


(** The three raising paths are taken. *)
Lemma convert_csv_raises self fs csv_path :
  (fs !! csv_path = None →
   convert_csv urljoin self fs csv_path = (self, Raise (FileNotFoundError csv_path)))
  ∧ (∀ message, fs !! csv_path = Some (Unreadable message) →
     convert_csv urljoin self fs csv_path = (self, Raise (ValueError_read message))).
Proof. unfold convert_csv. split; [intros ->|intros message ->]; done. Qed.

(** A call that returns hands back the graph of the converter, which
    holds what it held before. *)
Lemma convert_csv_return self fs csv_path self' (g : Graph) :
  convert_csv urljoin self fs csv_path = (self', Return g) →
  g = graph self' ∧ graph self ⊆ graph self'.
Proof.
  unfold convert_csv.
  destruct (fs !! csv_path) as [[message|df]|]; [done| |done].
  destruct (df_empty df); [by intros [= <- <-]|].
  case_bool_decide; [done|]. intros [= <- <-]. split; [done|].
  generalize (iterrows df). intros rows. revert self.
  induction rows as [|[idx row] rows IH]; intros self; simpl; [done|].
  etrans; [|apply IH]. rewrite _add_dataset_to_graph_graph.
  apply union_subseteq_r.
Qed.

End ConversionProperties.

(** C3, as stated, at a header-only table without the required columns:
    the call returns the graph and raises nothing. *)
Lemma header_only_counterexample :
  let df := {| columns := [ "publisher"; "issued" ]; data := [] |} in
  ¬ (required_columns ⊆ list_to_set (columns df))
  ∧ convert_csv join_under_directory (__init__ "http://example.org/")
      {[ "header.csv" := Readable df ]} "header.csv"
    = (__init__ "http://example.org/", Return ∅).
Proof.
  intros df. split; [|done].
  intros Hsub. specialize (Hsub "title").
  assert (Hin : "title" ∈ required_columns)
    by (apply elem_of_union_l; by apply elem_of_singleton).
  apply Hsub in Hin. simpl in Hin.
  rewrite !elem_of_union, !elem_of_singleton in Hin.
  destruct Hin as [|[|Hin]]; [done|done|by apply not_elem_of_empty in Hin].
Qed.

Lemma missing_columns_rejected_witness :
  let df := {| columns := [ "publisher"; "issued" ];
               data := [ [ Str "Test"; Str "2023-01-01" ] ] |} in
  convert_csv join_under_directory (__init__ "http://test.example.org/")
    {[ "invalid.csv" := Readable df ]} "invalid.csv"
  = (__init__ "http://test.example.org/",
     Raise (ValueError_missing_columns
              (required_columns ∖ list_to_set [ "publisher"; "issued" ]))).
Proof.
  intros df.
  refine (proj1 (missing_columns_rejected join_under_directory
                   (__init__ "http://test.example.org/")
                   {[ "invalid.csv" := Readable df ]} "invalid.csv" df
                   eq_refl _ _ _)); [done|done|].
  intros Hsub. specialize (Hsub "title").
  assert (Hin : "title" ∈ required_columns)
    by (apply elem_of_union_l; by apply elem_of_singleton).
  apply Hsub in Hin. simpl in Hin.
  rewrite !elem_of_union, !elem_of_singleton in Hin.
  destruct Hin as [|[|Hin]]; [done|done|by apply not_elem_of_empty in Hin].
Defined.

Lemma empty_table_noop_witness :
  let df := {| columns := [ "title"; "description" ]; data := [] |} in
  convert_csv join_under_directory (__init__ "http://test.example.org/")
    {[ "empty.csv" := Readable df ]} "empty.csv"
  = (__init__ "http://test.example.org/", Return ∅).
Proof.
  intros df.
  exact (empty_table_noop join_under_directory (__init__ "http://test.example.org/")
           {[ "empty.csv" := Readable df ]} "empty.csv" df eq_refl eq_refl).
Defined.


(** * Further properties *)

(** ** Splitting and stripping *)
Section TextFacts.
Import PyStr.
Implicit Types (s : string) (c sep : ascii).

Lemma split_length sep s : length (split sep s) = count_char sep s + 1.
Proof.
  induction s as [|c s IH]; [done|]. simpl.
  destruct (Ascii.eqb c sep); simpl; [by rewrite IH|].
  pose proof (PyStrFacts.split_not_nil sep s) as Hne.
  destruct (split sep s) as [|piece pieces]; [done|]. simpl in *. lia.
Qed.

Lemma split_pieces sep s :
  Forall (λ piece, count_char sep piece = 0) (split sep s).
Proof.
  induction s as [|c s IH]; simpl; [by repeat constructor|].
  destruct (Ascii.eqb c sep) eqn:Hc; [by constructor|].
  destruct (split sep s) as [|piece pieces]; simpl.
  - repeat constructor. simpl. by rewrite Hc.
  - inversion IH as [|? ? Hpiece Hpieces]; subst.
    constructor; [|done]. simpl. by rewrite Hc.
Qed.

Lemma join_split sep s : join sep (split sep s) = s.
Proof.
  induction s as [|c s IH]; [done|]. simpl.
  pose proof (PyStrFacts.split_not_nil sep s) as Hne.
  destruct (Ascii.eqb c sep) eqn:Hc.
  - apply Ascii.eqb_eq in Hc as ->.
    destruct (split sep s) as [|piece pieces]; [done|].
    simpl in *. by rewrite IH.
  - destruct (split sep s) as [|piece pieces]; [done|].
    destruct pieces as [|piece' pieces]; simpl in *; by rewrite <-IH.
Qed.

Lemma lstrip_count c s : count_char c (lstrip s) ≤ count_char c s.
Proof.
  induction s as [|c' s IH]; [done|]. simpl.
  destruct (is_space c'); simpl; lia.
Qed.

Lemma rstrip_count c s : count_char c (rstrip s) ≤ count_char c s.
Proof.
  induction s as [|c' s IH]; [done|]. simpl.
  destruct (rstrip s) as [|c'' r]; [destruct (is_space c')|]; simpl in *; lia.
Qed.

Lemma strip_count c s : count_char c (strip s) ≤ count_char c s.
Proof.
  unfold strip. etrans; [apply rstrip_count | apply lstrip_count].
Qed.

Lemma lstrip_first s c : first_char (lstrip s) = Some c → is_space c = false.
Proof.
  induction s as [|c' s IH]; [done|]. simpl.
  destruct (is_space c') eqn:Hc'; [done|]. simpl. by intros [= <-].
Qed.

Lemma rstrip_first s c :
  first_char (rstrip s) = Some c → first_char s = Some c.
Proof.
  destruct s as [|c' s]; [done|]. simpl.
  destruct (rstrip s); [destruct (is_space c')|]; done.
Qed.

Lemma rstrip_last s c : last_char (rstrip s) = Some c → is_space c = false.
Proof.
  induction s as [|c' s IH]; [done|]. simpl.
  destruct (rstrip s) as [|c'' r] eqn:Hr.
  - destruct (is_space c') eqn:Hc'; [done|]. simpl. by intros [= <-].
  - done.
Qed.

Lemma strip_trimmed s : trimmed (strip s).
Proof.
  unfold strip. split; intros c Hc.
  - by apply (lstrip_first s), rstrip_first.
  - by apply (rstrip_last (lstrip s)).
Qed.

Lemma strip_idemp s : strip (strip s) = strip s.
Proof.
  assert (Hl : ∀ t, (∀ c, first_char t = Some c → is_space c = false) →
                    lstrip t = t).
  { intros [|c t] Ht; [done|]. simpl. by rewrite (Ht c). }
  assert (Hr : ∀ t, rstrip (rstrip t) = rstrip t).
  { induction t as [|c t IH]; [done|]. simpl.
    destruct (rstrip t) as [|c' r] eqn:Ht.
    - destruct (is_space c) eqn:Hc; [done|]. simpl. by rewrite Hc.
    - simpl in *. rewrite IH. done. }
  unfold strip. rewrite Hl; [apply Hr|].
  apply (strip_trimmed s).
Qed.

End TextFacts.

(** ** Slugs of publisher names *)
Section SlugFacts.
Import PyStr.
Implicit Types (name : string) (c : ascii).











End SlugFacts.

(** ** The statements of a row, predicate by predicate *)

Lemma with_predicate_uniform (q p : Node) (ts : list Triple) :
  all_predicates (λ x, x = q) ts →
  with_predicate p ts = if decide (q = p) then ts else [].
Proof.
  intros Hts. case_decide as Hq.
  - subst. by apply with_predicate_all.
  - apply with_predicate_none. eapply Forall_impl; [exact Hts|].
    simpl. by intros t ->.
Qed.

Section FieldFacts.
Variable urljoin : string → string → string.
Implicit Types (self : CSVToHealthDCAT) (row : Series) (idx : nat) (ds : Node).

Lemma type_only ds : all_predicates (λ p, p = NS.RDF "type") (type_triples ds).
Proof. unfold type_triples. predicates. Qed.

Lemma issued_only ds row :
  all_predicates (λ p, p = NS.DCTERMS "issued") (issued_triples ds row).
Proof. unfold issued_triples. predicates. Qed.

Lemma modified_only ds row :
  all_predicates (λ p, p = NS.DCTERMS "modified") (modified_triples ds row).
Proof. unfold modified_triples. predicates. Qed.

Lemma license_only ds row :
  all_predicates (λ p, p = NS.DCTERMS "license") (license_triples ds row).
Proof. unfold license_triples. predicates. Qed.

Lemma theme_only ds row :
  all_predicates (λ p, p = NS.DCAT "theme") (theme_triples ds row).
Proof. unfold theme_triples. predicates. Qed.

Lemma landing_page_only ds row :
  all_predicates (λ p, p = NS.DCAT "landingPage") (landing_page_triples ds row).
Proof. unfold landing_page_triples. predicates. Qed.

(** Selects the statements of one constant predicate from those of a row:
    the groups with one predicate are kept or dropped whole, the publisher
    group is filtered statement by statement. *)
Ltac select_predicate row :=
  unfold emitted; rewrite !with_predicate_app;
  rewrite (with_predicate_uniform _ _ _ (type_only _)),
    (with_predicate_uniform _ _ _ (title_block _ _)),
    (with_predicate_uniform _ _ _ (description_block _ _)),
    (with_predicate_uniform _ _ _ (issued_only _ _)),
    (with_predicate_uniform _ _ _ (modified_only _ _)),
    (with_predicate_uniform _ _ _ (license_only _ _)),
    (with_predicate_uniform _ _ _ (theme_only _ _)),
    (with_predicate_uniform _ _ _ (keyword_block _ _)),
    (with_predicate_uniform _ _ _ (landing_page_only _ _));
  repeat first [ rewrite decide_True by done | rewrite decide_False by done ];
  unfold publisher_triples, present;
  destruct (row !! "publisher") as [publisher|];
  [destruct (notna publisher)|];
  unfold with_predicate;
  repeat first [ rewrite filter_cons_True by done
               | rewrite filter_cons_False by done ];
  rewrite ?filter_nil; simpl; rewrite ?app_nil_r.

(** X4: The issued and modified statements of a row: none when the row has
    no such label or the cell is [nan], otherwise one, with the text of
    the cell as it is for literal. *)
Theorem date_statements self row idx :
  let ds := dataset_uri urljoin self row idx in
  with_predicate (NS.DCTERMS "issued") (emitted urljoin self row idx)
  = match row !! "issued" with
    | Some v => if notna v then [ (ds, NS.DCTERMS "issued", Literal (str v)) ] else []
    | None => []
    end
  ∧ with_predicate (NS.DCTERMS "modified") (emitted urljoin self row idx)
    = match row !! "modified" with
      | Some v =>
          if notna v then [ (ds, NS.DCTERMS "modified", Literal (str v)) ] else []
      | None => []
      end.
Proof.
  intros ds. split.
  - select_predicate row; unfold issued_triples, present;
      by destruct (row !! "issued") as [v|]; [destruct (notna v)|].
  - select_predicate row; unfold modified_triples, present;
      by destruct (row !! "modified") as [v|]; [destruct (notna v)|].
Qed.

(** X5: The license and landing-page statements of a row: none when the row
    has no such label or the cell is [nan], otherwise one, whose object is
    the URI reference made of the text of the cell, whatever that text. *)
Theorem link_statements self row idx :
  let ds := dataset_uri urljoin self row idx in
  with_predicate (NS.DCTERMS "license") (emitted urljoin self row idx)
  = match row !! "license" with
    | Some v => if notna v then [ (ds, NS.DCTERMS "license", URIRef (str v)) ] else []
    | None => []
    end
  ∧ with_predicate (NS.DCAT "landingPage") (emitted urljoin self row idx)
    = match row !! "landing_page" with
      | Some v =>
          if notna v then [ (ds, NS.DCAT "landingPage", URIRef (str v)) ] else []
      | None => []
      end.
Proof.
  intros ds. split.
  - select_predicate row; unfold license_triples, present;
      by destruct (row !! "license") as [v|]; [destruct (notna v)|].
  - select_predicate row; unfold landing_page_triples, present;
      by destruct (row !! "landing_page") as [v|]; [destruct (notna v)|].
Qed.

(** X6: The theme statements of a row: at most one, none when the row has no
    [theme] label or the cell is [nan]; its object is always the URI of
    one of the five codes of the table under the authority. *)
Theorem theme_statements self row idx :
  let ds := dataset_uri urljoin self row idx in
  with_predicate (NS.DCAT "theme") (emitted urljoin self row idx)
  = match row !! "theme" with
    | Some v =>
        if notna v
        then [ (ds, NS.DCAT "theme", _get_theme_uri (PyStr.upper (str v))) ]
        else []
    | None => []
    end
  ∧ length (with_predicate (NS.DCAT "theme") (emitted urljoin self row idx)) ≤ 1
  ∧ (∀ t, t ∈ with_predicate (NS.DCAT "theme") (emitted urljoin self row idx) →
          ∃ code, code ∈ theme_codes ∧ t.2 = theme_code_uri code).
Proof.
  intros ds.
  assert (Hsel :
    with_predicate (NS.DCAT "theme") (emitted urljoin self row idx)
    = match row !! "theme" with
      | Some v =>
          if notna v
          then [ (ds, NS.DCAT "theme", _get_theme_uri (PyStr.upper (str v))) ]
          else []
      | None => []
      end).
  { select_predicate row; unfold theme_triples, present;
      by destruct (row !! "theme") as [v|]; [destruct (notna v)|]. }
  rewrite Hsel. split; [done|].
  destruct (row !! "theme") as [v|]; [destruct (notna v)|]; simpl;
    (split; [lia|]); intros t Ht; try by apply elem_of_nil in Ht.
  apply list_elem_of_singleton in Ht as ->. simpl.
  unfold _get_theme_uri.
  destruct (theme_mapping !! PyStr.upper (str v)) as [code|] eqn:Hcode; simpl.
  - exists code. split; [by eapply theme_mapping_code | done].
  - exists "HEAL". split; [apply list_elem_of_here | done].
Qed.

(** X3: The publisher statements of a row.  With a [publisher] label whose
    cell is not [nan]: one publisher link from the dataset, and a type
    and a name statement about the organization, the name being the text
    of the cell and not its slug.  Without: no publisher link, no name
    statement, and the type statement of the dataset is the only type
    statement. *)
Theorem publisher_statements self row idx :
  let ds := dataset_uri urljoin self row idx in
  let organization := λ v, publisher_uri urljoin self (str v) in
  with_predicate (NS.DCTERMS "publisher") (emitted urljoin self row idx)
  = match row !! "publisher" with
    | Some v =>
        if notna v then [ (ds, NS.DCTERMS "publisher", organization v) ] else []
    | None => []
    end
  ∧ with_predicate (NS.FOAF "name") (emitted urljoin self row idx)
    = match row !! "publisher" with
      | Some v =>
          if notna v then [ (organization v, NS.FOAF "name", Literal (str v)) ]
          else []
      | None => []
      end
  ∧ with_predicate (NS.RDF "type") (emitted urljoin self row idx)
    = (ds, NS.RDF "type", NS.DCAT "Dataset")
      :: match row !! "publisher" with
         | Some v =>
             if notna v
             then [ (organization v, NS.RDF "type", NS.FOAF "Organization") ]
             else []
         | None => []
         end.
Proof.
  intros ds organization. repeat split; by select_predicate row.
Qed.

(** X8: Every statement of a row is about its dataset or about the
    organization of its publisher cell. *)
Theorem statement_subjects self row idx (t : Triple) :
  t ∈ emitted urljoin self row idx →
  t.1.1 = dataset_uri urljoin self row idx
  ∨ ∃ v, row !! "publisher" = Some v ∧ notna v = true
         ∧ t.1.1 = publisher_uri urljoin self (str v).
Proof.
  unfold emitted.
  set (ds := dataset_uri urljoin self row idx).
  assert (Hone : ∀ (key : string) (f : Cell → Triple),
    (∀ v, (f v).1.1 = ds) →
    t ∈ match present row key with Some v => [ f v ] | None => [] end →
    t.1.1 = ds).
  { intros key f Hf. destruct (present row key) as [v|].
    - by intros ->%list_elem_of_singleton.
    - by intros ?%elem_of_nil. }
  rewrite !elem_of_app.
  intros [Ht|[Ht|[Ht|[Ht|[Ht|[Ht|[Ht|[Ht|[Ht|Ht]]]]]]]]].
  - left. by apply list_elem_of_singleton in Ht as ->.
  - left. by apply list_elem_of_singleton in Ht as ->.
  - left. unfold description_triples in Ht.
    destruct (PyStr.truthy _); [|by apply elem_of_nil in Ht].
    by apply list_elem_of_singleton in Ht as ->.
  - unfold publisher_triples, present in Ht.
    destruct (row !! "publisher") as [v|] eqn:Hrow; [|by apply elem_of_nil in Ht].
    destruct (notna v) eqn:Hv; [|by apply elem_of_nil in Ht].
    rewrite !elem_of_cons, elem_of_nil in Ht.
    destruct Ht as [->|[->|[->|[]]]]; [by left|right; by exists v..].
  - left. by apply (Hone "issued" (λ v, (ds, NS.DCTERMS "issued", Literal (str v)))).
  - left. by apply (Hone "modified" (λ v, (ds, NS.DCTERMS "modified", Literal (str v)))).
  - left. by apply (Hone "license" (λ v, (ds, NS.DCTERMS "license", URIRef (str v)))).
  - left. by apply (Hone "theme"
      (λ v, (ds, NS.DCAT "theme", _get_theme_uri (PyStr.upper (str v))))).
  - left. unfold keyword_triples in Ht.
    destruct (present row "keyword") as [v|]; [|by apply elem_of_nil in Ht].
    by apply list_elem_of_fmap in Ht as (piece & -> & _).
  - left. by apply (Hone "landing_page"
      (λ v, (ds, NS.DCAT "landingPage", URIRef (str v)))).
Qed.

End FieldFacts.

(** ** Keywords and dataset identifiers *)
Section KeywordAndIdentity.
Variable urljoin : string → string → string.
Implicit Types (self : CSVToHealthDCAT) (row : Series) (idx : nat) (df : DataFrame).

(** X7: The keyword statements of a row with a keyword cell that is not
    [nan] are one more than the semicolons of its text, and every keyword
    literal is free of semicolons and of white space at its two ends.  A
    row without the label, or with a [nan] cell, has no keyword
    statement. *)
Theorem keyword_literals self row idx :
  match row !! "keyword" with
  | Some v =>
      if notna v
      then
        length (with_predicate (NS.DCAT "keyword") (emitted urljoin self row idx))
        = count_char ";" (str v) + 1
        ∧ ∀ o, o ∈ objects (NS.DCAT "keyword") (emitted urljoin self row idx) →
               ∃ text, o = Literal text ∧ trimmed text ∧ count_char ";" text = 0
      else with_predicate (NS.DCAT "keyword") (emitted urljoin self row idx) = []
  | None => with_predicate (NS.DCAT "keyword") (emitted urljoin self row idx) = []
  end.
Proof.
  unfold objects. rewrite emitted_keyword. unfold keyword_triples, present.
  destruct (row !! "keyword") as [v|]; [|done].
  destruct (notna v); [|done]. split.
  - by rewrite length_fmap, split_length.
  - intros o. rewrite <-list_fmap_compose.
    intros (piece & -> & Hpiece)%list_elem_of_fmap. simpl.
    exists (PyStr.strip piece). split; [done|]. split; [apply strip_trimmed|].
    pose proof (split_pieces ";" (str v)) as Hall.
    rewrite Forall_forall in Hall. specialize (Hall piece Hpiece).
    pose proof (strip_count ";" piece). lia.
Qed.





(** X10: With an [id] label the identifier is the text of the cell and the
    position plays no part: rows whose id cells have the same text get
    the same dataset URI, wherever they are; so do all the rows whose id
    field is blank, whose identifier is the text "nan". *)
Theorem given_ids_collide self row1 row2 idx1 idx2 (v1 v2 : Cell) :
  row1 !! "id" = Some v1 →
  row2 !! "id" = Some v2 →
  str v1 = str v2 →
  dataset_uri urljoin self row1 idx1 = dataset_uri urljoin self row2 idx2
  ∧ dataset_id row1 idx1 = str v1
  ∧ (v1 = NaN → dataset_id row1 idx1 = "nan").
Proof.
  intros Hrow1 Hrow2 Hstr. unfold dataset_uri, dataset_id, get.
  rewrite Hrow1, Hrow2, Hstr. split; [done|]. split; [done|].
  intros ->. by rewrite <-Hstr.
Qed.

End KeywordAndIdentity.

(** ** Rows and tables in the graph *)
Section GraphFacts.
Variable urljoin : string → string → string.
Implicit Types (self : CSVToHealthDCAT) (row : Series) (idx : nat) (df : DataFrame).
Implicit Types (fs : FileSystem) (csv_path : string).

(** The statements of a row depend on the converter through its base URI
    only. *)
Lemma emitted_base self1 self2 row idx :
  base_uri self1 = base_uri self2 →
  emitted urljoin self1 row idx = emitted urljoin self2 row idx.
Proof.
  intros Hbase.
  unfold emitted, dataset_uri, publisher_triples, publisher_uri.
  by rewrite Hbase.
Qed.

Lemma converter_eq self1 self2 :
  base_uri self1 = base_uri self2 → graph self1 = graph self2 → self1 = self2.
Proof. destruct self1, self2. simpl. by intros -> ->. Qed.

(** X11: Mapping a row keeps the base URI and what the graph holds; mapping it
    a second time changes nothing. *)
Theorem mapper_idempotent self row idx :
  let self' := _add_dataset_to_graph urljoin self row idx in
  base_uri self' = base_uri self
  ∧ graph self ⊆ graph self'
  ∧ _add_dataset_to_graph urljoin self' row idx = self'.
Proof.
  intros self'. split; [done|]. split.
  - unfold self'. rewrite _add_dataset_to_graph_graph. apply union_subseteq_r.
  - apply converter_eq; [done|].
    rewrite _add_dataset_to_graph_graph.
    rewrite (emitted_base self' self) by done.
    unfold self'. rewrite _add_dataset_to_graph_graph.
    by rewrite (assoc_L (∪)), (idemp_L (∪)).
Qed.

(** X12: The order in which two rows are mapped does not show in the
    converter. *)
Theorem mapper_commutes self row1 idx1 row2 idx2 :
  _add_dataset_to_graph urljoin (_add_dataset_to_graph urljoin self row1 idx1) row2 idx2
  = _add_dataset_to_graph urljoin (_add_dataset_to_graph urljoin self row2 idx2) row1 idx1.
Proof.
  apply converter_eq; [done|].
  rewrite !_add_dataset_to_graph_graph.
  rewrite (emitted_base (_add_dataset_to_graph urljoin self row1 idx1) self) by done.
  rewrite (emitted_base (_add_dataset_to_graph urljoin self row2 idx2) self) by done.
  rewrite !(assoc_L (∪)). f_equal. apply (comm_L (∪)).
Qed.

(** The loop of [convert_csv]. *)
Lemma mapped_rows (rows : list (nat * Series)) self :
  let self' := foldl (λ s '(idx, row), _add_dataset_to_graph urljoin s row idx)
                     self rows in
  base_uri self' = base_uri self
  ∧ graph self'
    = list_to_set (mjoin ((λ '(idx, row), emitted urljoin self row idx) <$> rows))
      ∪ graph self.
Proof.
  revert self. induction rows as [|[idx row] rows IH]; intros self.
  - split; [done|]. cbn [foldl fmap list_fmap mjoin list_join].
    by rewrite list_to_set_nil, (left_id_L ∅ (∪)).
  - destruct (IH (_add_dataset_to_graph urljoin self row idx)) as [Hbase Hgraph].
    cbn [foldl]. split; [by rewrite Hbase|].
    rewrite Hgraph, _add_dataset_to_graph_graph.
    assert (Hrows :
      (λ '(idx0, row0),
         emitted urljoin (_add_dataset_to_graph urljoin self row idx) row0 idx0)
        <$> rows
      = (λ '(idx0, row0), emitted urljoin self row0 idx0) <$> rows).
    { apply list_fmap_ext. intros _ [idx0 row0] _. by apply emitted_base. }
    rewrite Hrows, fmap_cons. cbn [mjoin list_join].
    rewrite list_to_set_app_L, (assoc_L (∪)). f_equal. apply (comm_L (∪)).
Qed.




(** X15: Converting the same source again, right after a call that returned,
    returns the same graph and leaves the converter as the first call
    left it. *)
Theorem convert_csv_twice self fs csv_path self' (g : Graph) :
  convert_csv urljoin self fs csv_path = (self', Return g) →
  convert_csv urljoin self' fs csv_path = (self', Return g).
Proof.
  unfold convert_csv.
  destruct (fs !! csv_path) as [[message|df]|]; [done| |done].
  destruct (df_empty df); [by intros [= <- <-]|].
  case_bool_decide; [done|]. intros [= <- <-].
  destruct (mapped_rows (iterrows df) self) as [Hbase Hgraph].
  set (self' := foldl _ self (iterrows df)) in *.
  destruct (mapped_rows (iterrows df) self') as [Hbase' Hgraph'].
  assert (Hagain :
    foldl (λ s '(idx, row), _add_dataset_to_graph urljoin s row idx)
      self' (iterrows df) = self').
  { apply converter_eq; [done|]. rewrite Hgraph'.
    assert (Hrows :
      (λ '(idx0, row0), emitted urljoin self' row0 idx0) <$> iterrows df
      = (λ '(idx0, row0), emitted urljoin self row0 idx0) <$> iterrows df).
    { apply list_fmap_ext. intros _ [idx0 row0] _. by apply emitted_base. }
    rewrite Hrows, Hgraph. by rewrite (assoc_L (∪)), (idemp_L (∪)). }
  by rewrite Hagain.
Qed.


End GraphFacts.

(** ** The command line *)
Section CommandLineFacts.
Variable urljoin : string → string → string.
Variable serialize_ok : Graph → string → bool.
Implicit Types (fs : FileSystem) (args : Args) (df : DataFrame).

(** X17: A run whose input is not there, does not parse, or has a data row
    but not the two required columns ends with exit code 1 and without a
    call of the serializer, so that the output path is left alone. *)
Theorem main_failure fs args :
  fs !! arg_input args = None
  ∨ (∃ message, fs !! arg_input args = Some (Unreadable message))
  ∨ (∃ df, fs !! arg_input args = Some (Readable df)
           ∧ df_empty df = false
           ∧ ¬ (required_columns ⊆ list_to_set (columns df))) →
  main urljoin serialize_ok fs args = {| exit_code := 1; serialized := None |}.
Proof.
  unfold main, convert_csv.
  intros [Hfile|[[message Hfile]|(df & Hfile & Hempty & Hcolumns)]];
    rewrite Hfile; [done|done|].
  rewrite Hempty, bool_decide_eq_true_2; [done|].
  intros Hmissing. apply Hcolumns. intros column Hcolumn.
  destruct (decide (column ∈ (list_to_set (columns df) : gset string)))
    as [|Hout]; [done|].
  assert (column ∈ required_columns ∖ list_to_set (columns df)) as Hin
    by (by apply elem_of_difference).
  rewrite Hmissing in Hin. by apply not_elem_of_empty in Hin.
Qed.


End CommandLineFacts.

(** ** The examples of the further properties

    They are at the base [http://test.example.org/] and at the table of
    two columns, [title] and [description], with the two rows of the
    datasets on blood pressure and on diabetes. *)

Lemma statement_subjects_witness :
  let self := __init__ "http://test.example.org/" in
  let row : Series :=
    {[ "title" := Str "Blood Pressure Dataset"; "publisher" := Str "Health Authority" ]} in
  let organization := URIRef "http://test.example.org/organization/health-authority" in
  (organization, NS.FOAF "name", Literal "Health Authority")
    ∈ emitted join_under_directory self row 0
  ∧ (organization = dataset_uri join_under_directory self row 0
     ∨ ∃ v, row !! "publisher" = Some v ∧ notna v = true
            ∧ organization = publisher_uri join_under_directory self (str v)).
Proof.
  intros self row organization.
  assert (Hin : (organization, NS.FOAF "name", Literal "Health Authority")
                ∈ emitted join_under_directory self row 0)
    by (by apply (bool_decide_unpack _)).
  split; [exact Hin|].
  exact (statement_subjects join_under_directory self row 0 _ Hin).
Defined.


Lemma given_ids_collide_witness :
  let self := __init__ "http://test.example.org/" in
  let row1 : Series := {[ "title" := Str "Blood Pressure Dataset"; "id" := NaN ]} in
  let row2 : Series := {[ "title" := Str "Diabetes Registry"; "id" := NaN ]} in
  dataset_uri join_under_directory self row1 0
  = dataset_uri join_under_directory self row2 1
  ∧ dataset_id row1 0 = "nan".
Proof.
  intros self row1 row2.
  pose proof (given_ids_collide join_under_directory self row1 row2 0 1 NaN NaN
                eq_refl eq_refl eq_refl) as H.
  split; [exact (proj1 H) | exact (proj2 (proj2 H) eq_refl)].
Defined.



Lemma convert_csv_twice_witness :
  let first := convert_csv join_under_directory (__init__ "http://test.example.org/")
                 example_files "data.csv" in
  convert_csv join_under_directory first.1 example_files "data.csv"
  = (first.1, Return (graph first.1)).
Proof.
  intros first.
  exact (convert_csv_twice join_under_directory (__init__ "http://test.example.org/")
           example_files "data.csv" first.1 (graph first.1) eq_refl).
Defined.


Lemma main_failure_witness :
  main join_under_directory (λ _ _, true) example_files
    {| arg_input := "invalid.csv"; arg_output := "out.ttl";
       arg_base_uri := "http://example.org/"; arg_verbose := false |}
  = {| exit_code := 1; serialized := None |}.
Proof.
  apply main_failure. right. right.
  exists {| columns := [ "publisher" ]; data := [ [ Str "Test" ] ] |}.
  split; [done|]. split; [done|].
  by apply (bool_decide_unpack _).
Defined.

